(** * ClipKIT workflow wrapper ([wf/__init__.py])

    A shallow embedding of the Latch workflow that shells out to the
    [clipkit] alignment trimmer, together with the properties its
    specification states about it.

    Layout:
    - [PyRuntime]: the few Python builtins the module relies on
      (truthiness, [str] on numbers and paths, [subprocess.run],
      keyword-argument binding);
    - [Wf]: the module itself ([TrimmingMode], [trim_aln_task0], [clipkit]);
    - [Hosts]: concrete hosts on which tasks can be run;
    - the properties of the task and of the workflow. *)

From Stdlib Require Import ZArith String Ascii List Bool Permutation.
From Stdlib Require Import Floats.PrimFloat Floats.FloatOps Floats.SpecFloat.
From Stdlib Require Import Numbers.DecimalString.
Import ListNotations.

Set Warnings "-inexact-float".
Local Open Scope string_scope.
Local Open Scope Z_scope.

(* ================================================================== *)
(** * Python runtime *)
(* ================================================================== *)

Module PyRuntime.

(** ** Numbers

    [gap_threshold] is annotated [float]; Python accepts an [int] wherever
    a [float] is annotated, so a number is either of the two. *)

Inductive number : Type :=
| PyInt (z : Z)
| PyFloat (f : float).

(** [not x] on a number: true exactly for zero.  On floats this is IEEE
    comparison with zero, so [-0.0] is falsy and [nan] is not. *)
Definition falsy_number (x : number) : bool :=
  match x with
  | PyInt z => z =? 0
  | PyFloat f => PrimFloat.eqb f 0%float
  end.

(** [not x] on an [Optional[str]]: true for [None] and for [""]. *)
Definition falsy_optstr (x : option string) : bool :=
  match x with
  | None => true
  | Some EmptyString => true
  | Some (String _ _) => false
  end.

(** ** [str] on integers *)

Definition str_int (z : Z) : string := NilZero.string_of_int (Z.to_int z).

(** ** [str] on floats

    CPython prints the shortest decimal string that reads back as the same
    binary64 value ([repr] style ['r']).  The digit generation below follows
    the arbitrary-precision loop of [dtoa.c] in mode 0; the layout follows
    [format_float_short]: exponent notation when the decimal point falls
    outside (-4, 16], a trailing [.0] on integral values otherwise. *)

Definition digit_char (d : Z) : ascii := ascii_of_N (48 + Z.to_N d).

Fixpoint digits_str (ds : list Z) : string :=
  match ds with
  | [] => EmptyString
  | d :: ds' => String (digit_char d) (digits_str ds')
  end.

Fixpoint zeros (n : nat) : string :=
  match n with
  | O => EmptyString
  | S n' => String "0"%char (zeros n')
  end.

(** [R / S >= 10 ^ k] over the rationals. *)
Definition ge_pow10 (R S k : Z) : bool :=
  if 0 <=? k then S * 10 ^ k <=? R else S <=? R * 10 ^ (- k).

Fixpoint log10_from (fuel : nat) (R S k : Z) : Z :=
  match fuel with
  | O => k
  | S fuel' =>
      if ge_pow10 R S (k + 1) then log10_from fuel' R S (k + 1) else k
  end.

(** Floor of the decimal logarithm of [R / S = f * 2 ^ e], from an
    under-estimate based on the bit length. *)
Definition floor_log10 (f e R S : Z) : Z :=
  log10_from 8 R S (((Z.log2 f + e) * 30103) / 100000 - 1).

(** Add one unit in the last place to a reversed digit string, dropping the
    nines that carry; the flag reports a carry out of the first digit. *)
Fixpoint round_up (rd : list Z) : list Z * bool :=
  match rd with
  | [] => ([1], true)
  | d :: rest => if d =? 9 then round_up rest else ((d + 1) :: rest, false)
  end.

Definition is_Gt (c : comparison) : bool :=
  match c with Gt => true | _ => false end.
Definition is_Lt (c : comparison) : bool :=
  match c with Lt => true | _ => false end.
Definition is_Eq (c : comparison) : bool :=
  match c with Eq => true | _ => false end.

(** Digit loop: [R / S] is what is left of the value, [Mlo / S] and
    [Mhi / S] are the half-gaps to the neighbouring floats, and [even] says
    whether the rounding interval is closed. *)
Fixpoint gen (fuel : nat) (even : bool) (R S Mlo Mhi : Z) (acc : list Z)
  : list Z * bool :=
  match fuel with
  | O => (acc, false)
  | S fuel' =>
      let dig := R / S in
      let r := R mod S in
      let j := r ?= Mlo in
      let j1 := if S - Mhi <? 0 then Gt else r ?= S - Mhi in
      if is_Eq j1 && even then
        if dig =? 9 then round_up (dig :: acc)
        else if is_Gt j then ((dig + 1) :: acc, false)
        else (dig :: acc, false)
      else if is_Lt j || (is_Eq j && even) then
        if r =? 0 then (dig :: acc, false)
        else if is_Gt j1 then
          let c := 2 * r ?= S in
          if is_Gt c || (is_Eq c && Z.odd dig) then round_up (dig :: acc)
          else (dig :: acc, false)
        else (dig :: acc, false)
      else if is_Gt j1 then round_up (dig :: acc)
      else gen fuel' even (r * 10) S (Mlo * 10) (Mhi * 10) (dig :: acc)
  end.

(** Shortest digits of [f * 2 ^ e] ([f > 0]) and the position of the
    decimal point relative to the first digit. *)
Definition dtoa (f e : Z) : list Z * Z :=
  let R0 := if 0 <=? e then f * 2 ^ e * 2 else f * 2 in
  let S0 := if 0 <=? e then 2 else 2 ^ (- e) * 2 in
  let M := if 0 <=? e then 2 ^ e else 1 in
  let bndry := (f =? 2 ^ 52) && (-1074 <? e) in
  let R1 := if bndry then R0 * 2 else R0 in
  let S1 := if bndry then S0 * 2 else S0 in
  let Mhi := if bndry then M * 2 else M in
  let k := floor_log10 f e R1 S1 in
  let sc := 10 ^ (- k) in
  let '(rd, carry) :=
    if 0 <=? k then gen 20 (Z.even f) R1 (S1 * 10 ^ k) M Mhi []
    else gen 20 (Z.even f) (R1 * sc) S1 (M * sc) (Mhi * sc) [] in
  (rev rd, if carry then k + 2 else k + 1).

Definition str_exp (x : Z) : string :=
  (if x <? 0 then "-" else "+") ++
  (if Z.abs x <? 10 then "0" else "") ++ str_int (Z.abs x).

Definition format_short (ds : list Z) (decpt : Z) : string :=
  let n := Z.of_nat (length ds) in
  if (decpt <=? -4) || (16 <? decpt) then
    match ds with
    | [] => ""
    | d :: rest =>
        String (digit_char d)
          ((match rest with [] => "" | _ => "." ++ digits_str rest end)
           ++ "e" ++ str_exp (decpt - 1))
    end
  else if decpt <=? 0 then
    "0." ++ zeros (Z.to_nat (- decpt)) ++ digits_str ds
  else if n <=? decpt then
    digits_str ds ++ zeros (Z.to_nat (decpt - n)) ++ ".0"
  else
    digits_str (firstn (Z.to_nat decpt) ds) ++ "." ++
    digits_str (skipn (Z.to_nat decpt) ds).

Definition str_float (x : float) : string :=
  match Prim2SF x with
  | S754_nan => "nan"
  | S754_infinity s => if s then "-inf" else "inf"
  | S754_zero s => if s then "-0.0" else "0.0"
  | S754_finite s m e =>
      let '(ds, decpt) := dtoa (Z.pos m) e in
      (if s then "-" else "") ++ format_short ds decpt
  end.

Definition str_number (x : number) : string :=
  match x with
  | PyInt z => str_int z
  | PyFloat f => str_float f
  end.

(** ** Paths and [None]

    A [pathlib.Path] is carried by its string form, which is what [str]
    and an f-string placeholder both produce. *)

Record Path : Type := mkPath { fspath : string }.

(** [str(x)] (and [f"{x}"]) for a value that is a [Path], a [str] or
    [None]. *)
Definition str_obj (x : Path + option string) : string :=
  match x with
  | inl p => fspath p
  | inr (Some s) => s
  | inr None => "None"
  end.

(** ** Exceptions *)

Inductive exn : Type :=
| TypeError
| ValueError
| OSError (errno : Z).

(** ** Child processes

    [subprocess.run(args)] with no other argument waits for the child and
    hands back a [CompletedProcess]; nothing is captured, so the only thing
    it carries besides [args] is the exit status.  Starting the child may
    itself raise (no such executable, ...), which is not an outcome of the
    child and is decided by the host. *)

Record CompletedProcess : Type :=
  mkCompletedProcess { args : list string; returncode : Z }.

(** A computation that may start child processes: it returns, raises, or
    runs a command and goes on with what [subprocess.run] returned. *)
Inductive Task (A : Type) : Type :=
| Ret (a : A)
| Raise (e : exn)
| Run (cmd : list string) (k : CompletedProcess -> Task A).

Arguments Ret {A} a.
Arguments Raise {A} e.
Arguments Run {A} cmd k.

Fixpoint bind {A B : Type} (t : Task A) (f : A -> Task B) : Task B :=
  match t with
  | Ret a => f a
  | Raise e => Raise e
  | Run cmd k => Run cmd (fun cp => bind (k cp) f)
  end.

Definition subprocess_run (cmd : list string) : Task CompletedProcess :=
  Run cmd Ret.

(** The code of the task itself raises nowhere. *)
Inductive no_raise {A : Type} : Task A -> Prop :=
| no_raise_ret (a : A) : no_raise (Ret a)
| no_raise_run (cmd : list string) (k : CompletedProcess -> Task A) :
    (forall cp, no_raise (k cp)) -> no_raise (Run cmd k).

(** A host: some state of the outside world and what starting a command
    does to it. *)
Record Host : Type := mkHost {
  World : Type;
  spawn : list string -> World -> (exn + CompletedProcess) * World
}.

(** What running a task on a host leaves behind: the commands handed to
    [subprocess.run] in order, the value returned or the exception raised,
    and the world afterwards. *)
Record Outcome (W A : Type) : Type := mkOutcome {
  spawned : list (list string);
  result : exn + A;
  final : W
}.

Arguments mkOutcome {W A} spawned result final.
Arguments spawned {W A} o.
Arguments result {W A} o.
Arguments final {W A} o.

Fixpoint exec {A : Type} (H : Host) (t : Task A) (w : World H)
  : Outcome (World H) A :=
  match t with
  | Ret a => mkOutcome [] (inr a) w
  | Raise e => mkOutcome [] (inl e) w
  | Run cmd k =>
      match spawn H cmd w with
      | (inl e, w') => mkOutcome [cmd] (inl e) w'
      | (inr cp, w') =>
          let o := exec H (k cp) w' in
          mkOutcome (cmd :: spawned o) (result o) (final o)
      end
  end.

(** ** Calls with keyword arguments

    A signature lists the parameters in order, each with its annotation and
    its default if it has one.  A call by keyword fails with [TypeError] on
    an unknown or repeated keyword and on a parameter that has neither an
    argument nor a default; otherwise every parameter gets its argument or
    its default. *)

Record param (T V : Type) : Type := mkParam {
  pname : string;
  annotation : T;
  pdefault : option V
}.

Arguments mkParam {T V} pname annotation pdefault.
Arguments pname {T V} p.
Arguments annotation {T V} p.
Arguments pdefault {T V} p.

Fixpoint lookup {V : Type} (k : string) (kw : list (string * V)) : option V :=
  match kw with
  | [] => None
  | (k', v) :: kw' => if String.eqb k k' then Some v else lookup k kw'
  end.

Definition known {T V : Type} (ps : list (param T V)) (k : string) : bool :=
  existsb (fun p => String.eqb (pname p) k) ps.

Fixpoint repeated (ks : list string) : bool :=
  match ks with
  | [] => false
  | k :: ks' => existsb (String.eqb k) ks' || repeated ks'
  end.

Fixpoint fill {T V : Type} (ps : list (param T V)) (kw : list (string * V))
  : exn + list V :=
  match ps with
  | [] => inr []
  | p :: ps' =>
      match lookup (pname p) kw with
      | Some v =>
          match fill ps' kw with
          | inl e => inl e
          | inr vs => inr (v :: vs)
          end
      | None =>
          match pdefault p with
          | None => inl TypeError
          | Some d =>
              match fill ps' kw with
              | inl e => inl e
              | inr vs => inr (d :: vs)
              end
          end
      end
  end.

Definition bind_kwargs {T V : Type} (ps : list (param T V))
    (kw : list (string * V)) : exn + list V :=
  if negb (forallb (known ps) (map fst kw)) || repeated (map fst kw)
  then inl TypeError
  else fill ps kw.

End PyRuntime.
Export PyRuntime.

Notation "x <- t ;; k" := (bind t (fun x => k))
  (at level 61, t at next level, right associativity).

(* ================================================================== *)
(** * The workflow module *)
(* ================================================================== *)

Module Wf.

(** ** [class TrimmingMode(Enum)] *)

Inductive TrimmingMode : Type :=
| gappy
| smart_gap
| kpi
| kpi_gappy
| kpi_smart_gap
| kpic
| kpic_gappy
| kpic_smart_gap.

(** The [.value] of a member. *)
Definition value (m : TrimmingMode) : string :=
  match m with
  | gappy => "gappy"
  | smart_gap => "smart-gap"
  | kpi => "kpi"
  | kpi_gappy => "kpi-gappy"
  | kpi_smart_gap => "kpi-smart-gap"
  | kpic => "kpic"
  | kpic_gappy => "kpic-gappy"
  | kpic_smart_gap => "kpic-smart-gap"
  end.

(** The members in definition order, as iterating the class yields them. *)
Definition members : list TrimmingMode :=
  [gappy; smart_gap; kpi; kpi_gappy; kpi_smart_gap; kpic; kpic_gappy;
   kpic_smart_gap].

(** The [.name] of a member: the identifier it is declared under. *)
Definition name (m : TrimmingMode) : string :=
  match m with
  | gappy => "gappy"
  | smart_gap => "smart_gap"
  | kpi => "kpi"
  | kpi_gappy => "kpi_gappy"
  | kpi_smart_gap => "kpi_smart_gap"
  | kpic => "kpic"
  | kpic_gappy => "kpic_gappy"
  | kpic_smart_gap => "kpic_smart_gap"
  end.

(** [s.replace("_", "-")]. *)
Fixpoint hyphenate (s : string) : string :=
  match s with
  | EmptyString => EmptyString
  | String c s' =>
      String (if Ascii.eqb c "_"%char then "-"%char else c) (hyphenate s')
  end.

(** [TrimmingMode(s)]: an [Enum] class called on a value gives the first
    member declared with that value and raises [ValueError] when there is
    none. *)
Definition TrimmingMode_call (s : string) : exn + TrimmingMode :=
  match find (fun m => String.eqb (value m) s) members with
  | Some m => inr m
  | None => inl ValueError
  end.

(** ** [latch.types.LatchFile]

    The platform's file handle: the two things the module reads from it or
    passes to its constructor. *)

Record LatchFile : Type := mkLatchFile {
  local_path : string;
  remote_path : option string
}.

(** ** Values and annotations of the two signatures *)

Inductive pytype : Type :=
| T_LatchFile
| T_str
| T_float
| T_TrimmingMode
| T_Optional (t : pytype).

Inductive pyval : Type :=
| VNone
| VStr (s : string)
| VNum (n : number)
| VMode (m : TrimmingMode)
| VFile (f : LatchFile).

Definition of_optstr (o : option string) : pyval :=
  match o with
  | None => VNone
  | Some s => VStr s
  end.

Section Module_body.

(** [Path(p).resolve()] on the machine the task runs on: it depends on the
    working directory and on the links found there, neither of which the
    module touches. *)
Variable Path_resolve : Path -> Path.

(** ** [trim_aln_task0] *)

Definition trim_aln_task0_params : list (param pytype pyval) :=
  [ mkParam "aln_fasta" T_LatchFile None;
    mkParam "output_file_name" (T_Optional T_str) None;
    mkParam "gap_threshold" T_float (Some (VNum (PyFloat 0.9)));
    mkParam "trimming_mode" T_TrimmingMode (Some (VMode smart_gap)) ].

Definition trim_aln_task0
    (aln_fasta : LatchFile)
    (output_file_name : option string)
    (gap_threshold : number)
    (trimming_mode : TrimmingMode) : Task LatchFile :=
  (* Set output file name *)
  let trimmed_aln_fasta : Path + option string :=
    if falsy_optstr output_file_name
    then inl (Path_resolve (mkPath "trimmed_aln.fna"))
    else inr output_file_name in
  (* Set gap threshold is user did not provide a value *)
  let gap_threshold :=
    if falsy_number gap_threshold then PyFloat 0.9 else gap_threshold in
  let _clipkit_cmd :=
    [ "clipkit";
      local_path aln_fasta;
      "-o";
      str_obj trimmed_aln_fasta;
      "-m";
      value trimming_mode;
      "-g";
      str_number gap_threshold ] in
  _ <- subprocess_run _clipkit_cmd ;;
  Ret (mkLatchFile (str_obj trimmed_aln_fasta)
                   (Some ("latch:///" ++ str_obj trimmed_aln_fasta))).

(** A call [trim_aln_task0(k1=v1, ...)]: the keywords are bound against
    the signature, and the platform decorator accepts each argument only
    at its annotated type. *)
Definition call_trim_aln_task0 (kw : list (string * pyval))
  : Task LatchFile :=
  match bind_kwargs trim_aln_task0_params kw with
  | inl e => Raise e
  | inr [VFile a; VNone; VNum g; VMode m] => trim_aln_task0 a None g m
  | inr [VFile a; VStr s; VNum g; VMode m] => trim_aln_task0 a (Some s) g m
  | inr _ => Raise TypeError
  end.

(** ** [clipkit] *)

Definition clipkit_params : list (param pytype pyval) :=
  [ mkParam "aln_fasta" T_LatchFile None;
    mkParam "output_file_name" (T_Optional T_str) (Some VNone);
    mkParam "gap_threshold" T_float (Some (VNum (PyFloat 0.9)));
    mkParam "trimming_mode" T_TrimmingMode (Some (VMode smart_gap)) ].

Definition clipkit
    (aln_fasta : LatchFile)
    (output_file_name : option string)
    (gap_threshold : number)
    (trimming_mode : TrimmingMode) : Task LatchFile :=
  call_trim_aln_task0
    [ ("aln_fasta", VFile aln_fasta);
      ("output_file_name", of_optstr output_file_name);
      ("gap_threshold", VNum gap_threshold);
      ("trimming_mode", VMode trimming_mode) ].

(** A call [clipkit(k1=v1, ...)] of the workflow. *)
Definition call_clipkit (kw : list (string * pyval)) : Task LatchFile :=
  match bind_kwargs clipkit_params kw with
  | inl e => Raise e
  | inr [VFile a; VNone; VNum g; VMode m] => clipkit a None g m
  | inr [VFile a; VStr s; VNum g; VMode m] => clipkit a (Some s) g m
  | inr _ => Raise TypeError
  end.

End Module_body.

(** ** What the docstring of [clipkit] tells the user

    The modes of the bullet list under "Modes", in the order listed, and
    the defaults the text names ("Default: 'smart-gap'", "default: 0.9"). *)

Definition documented_modes : list string :=
  [ "smart-gap"; "gappy"; "kpic"; "kpic-smart-gap"; "kpic-gappy"; "kpi";
    "kpi-smart-gap"; "kpi-gappy" ].

Definition documented_default_mode : string := "smart-gap".

Definition documented_default_threshold : string := "0.9".

End Wf.
Export Wf.

(* ================================================================== *)
(** * Concrete hosts *)
(* ================================================================== *)

Module Hosts.

(** The world of these hosts is the list of files that exist. *)
Definition Files : Type := list string.

Definition exists_file (w : Files) (p : string) : bool :=
  existsb (String.eqb p) w.

(** A machine without links, working in directory [cwd]. *)
Definition resolve_in (cwd : string) (p : Path) : Path :=
  match fspath p with
  | String "/"%char _ => p
  | rel => mkPath (cwd ++ "/" ++ rel)
  end.

(** [clipkit] is installed and works: it writes the file named after [-o]
    when its input exists, and exits with status 1 otherwise. *)
Definition working : Host :=
  mkHost Files
    (fun cmd w =>
       match cmd with
       | [_; input; _; output; _; _; _; _] =>
           if exists_file w input
           then (inr (mkCompletedProcess cmd 0), output :: w)
           else (inr (mkCompletedProcess cmd 1), w)
       | _ => (inr (mkCompletedProcess cmd 2), w)
       end).

(** [clipkit] is installed but always fails: status 1, nothing written. *)
Definition failing : Host :=
  mkHost Files (fun cmd w => (inr (mkCompletedProcess cmd 1), w)).

(** [clipkit] is not installed: starting it raises [FileNotFoundError],
    an [OSError] with [errno] 2. *)
Definition not_installed : Host :=
  mkHost Files (fun _ w => (inl (OSError 2), w)).

Definition aln : LatchFile :=
  mkLatchFile "/root/aln.fa" (Some "latch:///aln.fa").

End Hosts.

(** ** The command of the task

    The argument list found at the root of the task's tree. *)

Definition task_cmd (Path_resolve : Path -> Path) (a : LatchFile)
    (o : option string) (g : number) (m : TrimmingMode) : list string :=
  match trim_aln_task0 Path_resolve a o g m with
  | Run cmd _ => cmd
  | _ => []
  end.

(* ================================================================== *)
(** * Properties *)
(* ================================================================== *)

(** ** Sample evaluations *)

(** A few renderings, as CPython prints them. *)
Example str_float_samples :
  map str_float
      [0.9; 0.1; 1; -2.5; 1e15; 1e16; 1e-5; 0.0001; 123.456; 5e-324]%float
  = ["0.9"; "0.1"; "1.0"; "-2.5"; "1000000000000000.0"; "1e+16"; "1e-05";
     "0.0001"; "123.456"; "5e-324"].
Proof. vm_compute. reflexivity. Qed.

Example str_int_samples :
  map str_int [0; 7; -12; 100] = ["0"; "7"; "-12"; "100"].
Proof. vm_compute. reflexivity. Qed.

(** Two complete runs on a working host. *)
Example run_defaults :
  exec Hosts.working
       (clipkit (Hosts.resolve_in "/root") Hosts.aln None (PyFloat 0.9)
                smart_gap)
       ["/root/aln.fa"]
  = mkOutcome
      [["clipkit"; "/root/aln.fa"; "-o"; "/root/trimmed_aln.fna"; "-m";
        "smart-gap"; "-g"; "0.9"]]
      (inr (mkLatchFile "/root/trimmed_aln.fna"
                        (Some "latch:////root/trimmed_aln.fna")))
      ["/root/trimmed_aln.fna"; "/root/aln.fa"].
Proof. vm_compute. reflexivity. Qed.

Example run_named :
  exec Hosts.working
       (clipkit (Hosts.resolve_in "/root") Hosts.aln (Some "out.fa")
                (PyFloat 0.25) kpic_gappy)
       ["/root/aln.fa"]
  = mkOutcome
      [["clipkit"; "/root/aln.fa"; "-o"; "out.fa"; "-m"; "kpic-gappy"; "-g";
        "0.25"]]
      (inr (mkLatchFile "out.fa" (Some "latch:///out.fa")))
      ["out.fa"; "/root/aln.fa"].
Proof. vm_compute. reflexivity. Qed.

(** ** Running a task that starts one command *)

Lemma exec_run_ret {A : Type} (H : Host) (cmd : list string) (a : A)
    (w : World H) :
  exec H (Run cmd (fun _ => Ret a)) w
  = mkOutcome [cmd]
      (match fst (spawn H cmd w) with inl e => inl e | inr _ => inr a end)
      (snd (spawn H cmd w)).
Proof.
  cbn [exec]. destruct (spawn H cmd w) as [[e | cp] w']; reflexivity.
Qed.

Lemma no_raise_run_ret {A : Type} (cmd : list string) (a : A) :
  no_raise (Run cmd (fun _ => Ret a)).
Proof. constructor. intros cp. constructor. Qed.

(** The task starts exactly one command and then returns a handle that
    does not depend on what the command did. *)
Lemma trim_aln_task0_tree (R : Path -> Path) (a : LatchFile)
    (o : option string) (g : number) (m : TrimmingMode) :
  trim_aln_task0 R a o g m
  = Run (task_cmd R a o g m)
        (fun _ =>
           Ret (mkLatchFile (nth 3 (task_cmd R a o g m) "")
                  (Some ("latch:///" ++ nth 3 (task_cmd R a o g m) "")))).
Proof. reflexivity. Qed.

Lemma task_cmd_eq (R : Path -> Path) (a : LatchFile) (o : option string)
    (g : number) (m : TrimmingMode) :
  task_cmd R a o g m
  = [ "clipkit"; local_path a; "-o";
      match o with
      | Some (String c s) => String c s
      | _ => fspath (R (mkPath "trimmed_aln.fna"))
      end;
      "-m"; value m; "-g";
      str_number (if falsy_number g then PyFloat 0.9 else g) ].
Proof. destruct o as [[| c s] |]; reflexivity. Qed.

Lemma str_float_default : str_float 0.9 = "0.9".
Proof. vm_compute. reflexivity. Qed.

Lemma spawned_trim (R : Path -> Path) (H : Host) (w : World H)
    (a : LatchFile) (o : option string) (g : number) (m : TrimmingMode) :
  spawned (exec H (trim_aln_task0 R a o g m) w) = [task_cmd R a o g m].
Proof. rewrite trim_aln_task0_tree, exec_run_ret. reflexivity. Qed.

(** ** The command line *)

(** C1: on every host and in every world, for all arguments, the task hands
    [subprocess.run] exactly one argument list, and it is the eight strings
    [clipkit <input local path> -o <output path> -m <mode value> -g
    <threshold>] in that order, where the output path is the caller's
    non-empty name or else the resolved default, and the threshold is the
    [str] of the caller's number or of 0.9 when that number is falsy. *)
Theorem clipkit_cmd_exact (R : Path -> Path) (H : Host) (w : World H)
    (a : LatchFile) (o : option string) (g : number) (m : TrimmingMode) :
  spawned (exec H (trim_aln_task0 R a o g m) w)
  = [[ "clipkit";
       local_path a;
       "-o";
       match o with
       | Some (String c s) => String c s
       | _ => fspath (R (mkPath "trimmed_aln.fna"))
       end;
       "-m";
       value m;
       "-g";
       str_number (if falsy_number g then PyFloat 0.9 else g) ]].
Proof. rewrite spawned_trim, task_cmd_eq. reflexivity. Qed.

(** ** The enumeration *)

(** C2: [TrimmingMode] has exactly eight members, pairwise distinct, whose
    values are gappy, smart-gap, kpi, kpi-gappy, kpi-smart-gap, kpic,
    kpic-gappy and kpic-smart-gap; and for each of them the command carries
    [-m] at index 4 followed by exactly that value at index 5. *)
Theorem mode_flag_is_value :
  (forall m : TrimmingMode, In m members)
  /\ NoDup members
  /\ length members = 8%nat
  /\ map value members
     = ["gappy"; "smart-gap"; "kpi"; "kpi-gappy"; "kpi-smart-gap"; "kpic";
        "kpic-gappy"; "kpic-smart-gap"]
  /\ forall (R : Path -> Path) (H : Host) (w : World H) (a : LatchFile)
            (o : option string) (g : number) (m : TrimmingMode),
       exists cmd : list string,
         spawned (exec H (trim_aln_task0 R a o g m) w) = [cmd]
         /\ nth_error cmd 4 = Some "-m"
         /\ nth_error cmd 5 = Some (value m).
Proof.
  split; [| split; [| split; [| split]]].
  - intros m. destruct m; cbn; tauto.
  - unfold members.
    repeat (constructor; [cbn; intros Hin;
                          repeat (destruct Hin as [Hin | Hin];
                                  [discriminate Hin |]); exact Hin |]).
    constructor.
  - reflexivity.
  - reflexivity.
  - intros R H w a o g m. exists (task_cmd R a o g m). split.
    + apply spawned_trim.
    + rewrite task_cmd_eq. split; reflexivity.
Qed.

(** ** The gap threshold *)

Lemma threshold_arg (R : Path -> Path) (a : LatchFile) (o : option string)
    (g : number) (m : TrimmingMode) :
  nth_error (task_cmd R a o g m) 6 = Some "-g"
  /\ nth_error (task_cmd R a o g m) 7
     = Some (if falsy_number g then "0.9" else str_number g).
Proof.
  rewrite task_cmd_eq. split; [reflexivity |].
  cbn [nth_error]. destruct (falsy_number g); [| reflexivity].
  change (str_number (PyFloat 0.9)) with (str_float 0.9).
  rewrite str_float_default. reflexivity.
Qed.

(** C3: the string after [-g] (index 7 of the command, [-g] being at
    index 6) is ["0.9"] whenever the supplied threshold is falsy and the
    [str] of the supplied threshold otherwise; integer zero, float zero and
    negative float zero are all falsy, so an explicit zero is replaced; and
    a call that leaves [gap_threshold] out, of the workflow or of the task,
    gives ["0.9"] as well. *)
Theorem falsy_threshold_becomes_default (R : Path -> Path) (H : Host)
    (w : World H) (a : LatchFile) (o : option string) (g : number)
    (m : TrimmingMode) :
  (exists cmd : list string,
     spawned (exec H (trim_aln_task0 R a o g m) w) = [cmd]
     /\ nth_error cmd 6 = Some "-g"
     /\ nth_error cmd 7
        = Some (if falsy_number g then "0.9" else str_number g))
  /\ falsy_number (PyInt 0) = true
  /\ falsy_number (PyFloat 0) = true
  /\ falsy_number (PyFloat (-0)) = true
  /\ (exists cmd : list string,
        spawned (exec H (call_clipkit R
                           [ ("aln_fasta", VFile a);
                             ("output_file_name", of_optstr o);
                             ("trimming_mode", VMode m) ]) w) = [cmd]
        /\ nth_error cmd 7 = Some "0.9")
  /\ (exists cmd : list string,
        spawned (exec H (call_trim_aln_task0 R
                           [ ("aln_fasta", VFile a);
                             ("output_file_name", of_optstr o);
                             ("trimming_mode", VMode m) ]) w) = [cmd]
        /\ nth_error cmd 7 = Some "0.9").
Proof.
  split; [| split; [| split; [| split; [| split]]]].
  - exists (task_cmd R a o g m). split; [apply spawned_trim |].
    apply threshold_arg.
  - reflexivity.
  - reflexivity.
  - reflexivity.
  - exists (task_cmd R a o (PyFloat 0.9) m). split.
    + destruct o as [s |]; apply spawned_trim.
    + apply (threshold_arg R a o (PyFloat 0.9) m).
  - exists (task_cmd R a o (PyFloat 0.9) m). split.
    + destruct o as [s |]; apply spawned_trim.
    + apply (threshold_arg R a o (PyFloat 0.9) m).
Qed.

(** ** The output path *)

Lemma result_trim (R : Path -> Path) (H : Host) (w : World H)
    (a : LatchFile) (o : option string) (g : number) (m : TrimmingMode) :
  result (exec H (trim_aln_task0 R a o g m) w)
  = match fst (spawn H (task_cmd R a o g m) w) with
    | inl e => inl e
    | inr _ =>
        inr (mkLatchFile (nth 3 (task_cmd R a o g m) "")
               (Some ("latch:///" ++ nth 3 (task_cmd R a o g m) "")))
    end.
Proof. rewrite trim_aln_task0_tree at 1. rewrite exec_run_ret. reflexivity. Qed.

Lemma final_trim (R : Path -> Path) (H : Host) (w : World H)
    (a : LatchFile) (o : option string) (g : number) (m : TrimmingMode) :
  final (exec H (trim_aln_task0 R a o g m) w)
  = snd (spawn H (task_cmd R a o g m) w).
Proof. rewrite trim_aln_task0_tree at 1. rewrite exec_run_ret. reflexivity. Qed.

(** C4: with no output name the string after [-o] (index 3, [-o] being at
    index 2) is the resolved form of the fixed name [trimmed_aln.fna], and
    with a non-empty name it is that name, character for character; in both
    cases this same string is the local path of the handle the task returns
    once the command has run. *)
Theorem output_path_default_or_verbatim (R : Path -> Path) (H : Host)
    (w : World H) (a : LatchFile) (g : number) (m : TrimmingMode) :
  (exists cmd : list string,
     spawned (exec H (trim_aln_task0 R a None g m) w) = [cmd]
     /\ nth_error cmd 2 = Some "-o"
     /\ nth_error cmd 3 = Some (fspath (R (mkPath "trimmed_aln.fna")))
     /\ result (exec H (trim_aln_task0 R a None g m) w)
        = match fst (spawn H cmd w) with
          | inl e => inl e
          | inr _ =>
              inr (mkLatchFile (fspath (R (mkPath "trimmed_aln.fna")))
                     (Some ("latch:///"
                            ++ fspath (R (mkPath "trimmed_aln.fna")))))
          end)
  /\ forall (c : ascii) (s : string),
       exists cmd : list string,
         spawned (exec H (trim_aln_task0 R a (Some (String c s)) g m) w)
         = [cmd]
         /\ nth_error cmd 2 = Some "-o"
         /\ nth_error cmd 3 = Some (String c s)
         /\ result (exec H (trim_aln_task0 R a (Some (String c s)) g m) w)
            = match fst (spawn H cmd w) with
              | inl e => inl e
              | inr _ =>
                  inr (mkLatchFile (String c s)
                         (Some ("latch:///" ++ String c s)))
              end.
Proof.
  split.
  - exists (task_cmd R a None g m).
    split; [apply spawned_trim |].
    rewrite result_trim, task_cmd_eq. repeat split.
  - intros c s. exists (task_cmd R a (Some (String c s)) g m).
    split; [apply spawned_trim |].
    rewrite result_trim, task_cmd_eq. repeat split.
Qed.

(** C9: an empty output name is treated like a missing one: the task is the
    same computation as with [None], and the string after [-o] is the
    resolved default, not the empty string that was supplied. *)
Theorem empty_name_is_default (R : Path -> Path) (a : LatchFile)
    (g : number) (m : TrimmingMode) :
  trim_aln_task0 R a (Some "") g m = trim_aln_task0 R a None g m
  /\ forall (H : Host) (w : World H),
       exists cmd : list string,
         spawned (exec H (trim_aln_task0 R a (Some "") g m) w) = [cmd]
         /\ nth_error cmd 2 = Some "-o"
         /\ nth_error cmd 3 = Some (fspath (R (mkPath "trimmed_aln.fna"))).
Proof.
  split; [reflexivity |].
  intros H w. exists (task_cmd R a (Some "") g m).
  split; [apply spawned_trim |].
  rewrite task_cmd_eq. split; reflexivity.
Qed.

Example empty_name_on_host :
  spawned (exec Hosts.failing
             (trim_aln_task0 (Hosts.resolve_in "/root") Hosts.aln (Some "")
                (PyFloat 0.9) smart_gap) [])
  = [["clipkit"; "/root/aln.fa"; "-o"; "/root/trimmed_aln.fna"; "-m";
      "smart-gap"; "-g"; "0.9"]].
Proof. vm_compute. reflexivity. Qed.

(** ** The returned handle *)

Lemma spawned_trim_inv (R : Path -> Path) (H : Host) (w : World H)
    (a : LatchFile) (o : option string) (g : number) (m : TrimmingMode)
    (cmd : list string) :
  spawned (exec H (trim_aln_task0 R a o g m) w) = [cmd] ->
  cmd = task_cmd R a o g m.
Proof. rewrite spawned_trim. intros E. injection E as E. symmetry. exact E. Qed.

(** C5: whenever the command the task starts runs to completion, the task
    returns a handle whose local path is the output path, that is the very
    string passed after [-o], and whose remote destination is ["latch:///"]
    followed by that same string. *)
Theorem returned_handle (R : Path -> Path) (H : Host) (w : World H)
    (a : LatchFile) (o : option string) (g : number) (m : TrimmingMode)
    (cmd : list string) (cp : CompletedProcess) (w' : World H) :
  spawned (exec H (trim_aln_task0 R a o g m) w) = [cmd] ->
  spawn H cmd w = (inr cp, w') ->
  exists out : string,
    nth_error cmd 2 = Some "-o"
    /\ nth_error cmd 3 = Some out
    /\ result (exec H (trim_aln_task0 R a o g m) w)
       = inr (mkLatchFile out (Some ("latch:///" ++ out))).
Proof.
  intros Hcmd Hrun. apply spawned_trim_inv in Hcmd. subst cmd.
  exists (nth 3 (task_cmd R a o g m) "").
  rewrite result_trim, Hrun. rewrite task_cmd_eq. repeat split.
Qed.

Lemma returned_handle_witness :
  exists out : string,
    nth_error
      ["clipkit"; "/root/aln.fa"; "-o"; "/root/trimmed_aln.fna"; "-m";
       "kpi"; "-g"; "0.5"] 2 = Some "-o"
    /\ nth_error
         ["clipkit"; "/root/aln.fa"; "-o"; "/root/trimmed_aln.fna"; "-m";
          "kpi"; "-g"; "0.5"] 3 = Some out
    /\ result (exec Hosts.working
                 (trim_aln_task0 (Hosts.resolve_in "/root") Hosts.aln None
                    (PyFloat 0.5) kpi) ["/root/aln.fa"])
       = inr (mkLatchFile out (Some ("latch:///" ++ out))).
Proof.
  apply (returned_handle (Hosts.resolve_in "/root") Hosts.working
           ["/root/aln.fa"] Hosts.aln None (PyFloat 0.5) kpi
           ["clipkit"; "/root/aln.fa"; "-o"; "/root/trimmed_aln.fna"; "-m";
            "kpi"; "-g"; "0.5"]
           (mkCompletedProcess
              ["clipkit"; "/root/aln.fa"; "-o"; "/root/trimmed_aln.fna";
               "-m"; "kpi"; "-g"; "0.5"] 0)
           ["/root/trimmed_aln.fna"; "/root/aln.fa"]).
  - vm_compute. reflexivity.
  - vm_compute. reflexivity.
Defined.

(** ** Failure of the external tool *)

(** C6: the code of the task raises nowhere, and once the command it starts
    has run to completion, with whatever exit status and leaving whatever
    files behind, the task returns a handle for the path passed after [-o]
    and leaves the world as the command left it; the handle is the same on
    any other host on which that command completes, so nothing of the
    child's outcome reaches the result. *)
Theorem process_outcome_ignored (R : Path -> Path) (H : Host) (w : World H)
    (a : LatchFile) (o : option string) (g : number) (m : TrimmingMode)
    (cmd : list string) (cp : CompletedProcess) (w' : World H) :
  spawned (exec H (trim_aln_task0 R a o g m) w) = [cmd] ->
  spawn H cmd w = (inr cp, w') ->
  no_raise (trim_aln_task0 R a o g m)
  /\ final (exec H (trim_aln_task0 R a o g m) w) = w'
  /\ exists h : LatchFile,
       result (exec H (trim_aln_task0 R a o g m) w) = inr h
       /\ nth_error cmd 3 = Some (local_path h)
       /\ forall (H2 : Host) (w2 : World H2) (cp2 : CompletedProcess)
                 (w2' : World H2),
            spawn H2 cmd w2 = (inr cp2, w2') ->
            result (exec H2 (trim_aln_task0 R a o g m) w2) = inr h.
Proof.
  intros Hcmd Hrun. apply spawned_trim_inv in Hcmd. subst cmd.
  split; [| split].
  - rewrite trim_aln_task0_tree. apply no_raise_run_ret.
  - rewrite final_trim, Hrun. reflexivity.
  - eexists. split; [| split].
    + rewrite result_trim, Hrun. reflexivity.
    + rewrite task_cmd_eq. reflexivity.
    + intros H2 w2 cp2 w2' Hrun2. rewrite result_trim, Hrun2. reflexivity.
Qed.

(** On a host where [clipkit] exits with status 1 and writes nothing, the
    task still returns the handle, for a file that does not exist. *)
Lemma process_outcome_ignored_witness :
  no_raise (trim_aln_task0 (Hosts.resolve_in "/root") Hosts.aln
              (Some "out.fa") (PyFloat 0.9) gappy)
  /\ final (exec Hosts.failing
              (trim_aln_task0 (Hosts.resolve_in "/root") Hosts.aln
                 (Some "out.fa") (PyFloat 0.9) gappy) []) = []
  /\ exists h : LatchFile,
       result (exec Hosts.failing
                 (trim_aln_task0 (Hosts.resolve_in "/root") Hosts.aln
                    (Some "out.fa") (PyFloat 0.9) gappy) []) = inr h
       /\ nth_error
            ["clipkit"; "/root/aln.fa"; "-o"; "out.fa"; "-m"; "gappy"; "-g";
             "0.9"] 3 = Some (local_path h)
       /\ forall (H2 : Host) (w2 : World H2) (cp2 : CompletedProcess)
                 (w2' : World H2),
            spawn H2
              ["clipkit"; "/root/aln.fa"; "-o"; "out.fa"; "-m"; "gappy";
               "-g"; "0.9"] w2 = (inr cp2, w2') ->
            result (exec H2
                      (trim_aln_task0 (Hosts.resolve_in "/root") Hosts.aln
                         (Some "out.fa") (PyFloat 0.9) gappy) w2) = inr h.
Proof.
  apply (process_outcome_ignored (Hosts.resolve_in "/root") Hosts.failing []
           Hosts.aln (Some "out.fa") (PyFloat 0.9) gappy
           ["clipkit"; "/root/aln.fa"; "-o"; "out.fa"; "-m"; "gappy"; "-g";
            "0.9"]
           (mkCompletedProcess
              ["clipkit"; "/root/aln.fa"; "-o"; "out.fa"; "-m"; "gappy";
               "-g"; "0.9"] 1)
           []).
  - vm_compute. reflexivity.
  - vm_compute. reflexivity.
Defined.

Example failed_trim_still_returns :
  exec Hosts.failing
       (trim_aln_task0 (Hosts.resolve_in "/root") Hosts.aln (Some "out.fa")
          (PyFloat 0.9) gappy) []
  = mkOutcome
      [["clipkit"; "/root/aln.fa"; "-o"; "out.fa"; "-m"; "gappy"; "-g";
        "0.9"]]
      (inr (mkLatchFile "out.fa" (Some "latch:///out.fa")))
      []
  /\ Hosts.exists_file [] "out.fa" = false.
Proof. split; vm_compute; reflexivity. Qed.

(** The one way the task ends in an exception: [subprocess.run] could not
    start the command at all. *)
Example not_installed_raises :
  result (exec Hosts.not_installed
            (trim_aln_task0 (Hosts.resolve_in "/root") Hosts.aln None
               (PyFloat 0.9) smart_gap) ["/root/aln.fa"])
  = inl (OSError 2).
Proof. vm_compute. reflexivity. Qed.

(** ** The workflow *)

(** C7: for all four arguments the workflow is the very computation the
    task is on the same arguments: it binds each of them by keyword to the
    task's parameter of the same name and does nothing else. *)
Theorem clipkit_forwards (R : Path -> Path) (a : LatchFile)
    (o : option string) (g : number) (m : TrimmingMode) :
  clipkit R a o g m = trim_aln_task0 R a o g m.
Proof. destruct o as [s |]; reflexivity. Qed.

Lemma known_In {T V : Type} (ps : list (param T V)) (k : string) :
  known ps k = true <-> In k (map pname ps).
Proof.
  unfold known. induction ps as [| p ps IH]; cbn.
  - split; [discriminate | tauto].
  - rewrite orb_true_iff, IH, String.eqb_eq. tauto.
Qed.

Lemma bind_kwargs_unknown {T V : Type} (ps : list (param T V))
    (kw : list (string * V)) (k : string) :
  In k (map fst kw) -> ~ In k (map pname ps) ->
  bind_kwargs ps kw = inl TypeError.
Proof.
  intros Hin Hout. unfold bind_kwargs.
  assert (Hf : forallb (known ps) (map fst kw) = false).
  { destruct (forallb (known ps) (map fst kw)) eqn:E; [| reflexivity].
    rewrite forallb_forall in E. apply E in Hin.
    apply known_In in Hin. contradiction. }
  rewrite Hf. reflexivity.
Qed.

Lemma bind_kwargs_required {T V : Type} (p : param T V)
    (ps : list (param T V)) (kw : list (string * V)) :
  pdefault p = None -> lookup (pname p) kw = None ->
  bind_kwargs (p :: ps) kw = inl TypeError.
Proof.
  intros Hd Hl. unfold bind_kwargs.
  destruct (negb _ || _); [reflexivity |].
  cbn [fill]. rewrite Hl, Hd. reflexivity.
Qed.

(** C8: the workflow declares exactly four parameters, in this order:
    [aln_fasta], a remote file with no default, hence required;
    [output_file_name], an optional string defaulting to [None];
    [gap_threshold], a float defaulting to 0.9; and [trimming_mode], a
    [TrimmingMode] defaulting to [smart_gap].  Accordingly a call that
    gives only [aln_fasta] runs with those three defaults, a call that
    gives all four runs with them as given, a call without [aln_fasta] is a
    [TypeError], and so is a call with any keyword other than the four. *)
Theorem workflow_parameters :
  map pname clipkit_params
  = ["aln_fasta"; "output_file_name"; "gap_threshold"; "trimming_mode"]
  /\ map annotation clipkit_params
     = [T_LatchFile; T_Optional T_str; T_float; T_TrimmingMode]
  /\ map pdefault clipkit_params
     = [None; Some VNone; Some (VNum (PyFloat 0.9)); Some (VMode smart_gap)]
  /\ (forall (R : Path -> Path) (a : LatchFile),
        call_clipkit R [("aln_fasta", VFile a)]
        = clipkit R a None (PyFloat 0.9) smart_gap)
  /\ (forall (R : Path -> Path) (a : LatchFile) (o : option string)
             (g : number) (m : TrimmingMode),
        call_clipkit R
          [ ("aln_fasta", VFile a);
            ("output_file_name", of_optstr o);
            ("gap_threshold", VNum g);
            ("trimming_mode", VMode m) ]
        = clipkit R a o g m)
  /\ (forall (R : Path -> Path) (kw : list (string * pyval)),
        lookup "aln_fasta" kw = None ->
        call_clipkit R kw = Raise TypeError)
  /\ (forall (R : Path -> Path) (kw : list (string * pyval)) (k : string),
        In k (map fst kw) ->
        ~ In k ["aln_fasta"; "output_file_name"; "gap_threshold";
                "trimming_mode"] ->
        call_clipkit R kw = Raise TypeError).
Proof.
  split; [reflexivity |]. split; [reflexivity |]. split; [reflexivity |].
  split; [reflexivity |]. split; [| split].
  - intros R a o g m. destruct o as [s |]; reflexivity.
  - intros R kw Hl. unfold call_clipkit, clipkit_params.
    rewrite bind_kwargs_required; [reflexivity | reflexivity | exact Hl].
  - intros R kw k Hin Hout. unfold call_clipkit.
    rewrite (bind_kwargs_unknown clipkit_params kw k Hin Hout). reflexivity.
Qed.

Lemma workflow_parameters_witness :
  call_clipkit (Hosts.resolve_in "/root")
    [("output_file_name", VStr "out.fa")] = Raise TypeError
  /\ call_clipkit (Hosts.resolve_in "/root")
       [("aln_fasta", VFile Hosts.aln); ("threads", VNum (PyInt 4))]
     = Raise TypeError.
Proof.
  destruct workflow_parameters as (_ & _ & _ & _ & _ & Hreq & Hunk).
  split.
  - apply Hreq. reflexivity.
  - apply (Hunk _ _ "threads").
    + cbn. right. left. reflexivity.
    + cbn. intros [E | [E | [E | [E | []]]]]; discriminate E.
Defined.

(** ** No validation of the threshold *)

(** C10: whatever the threshold, the code of the task raises nowhere; and
    every threshold that is not falsy, negative or above 1 included, is
    passed after [-g] as its own [str], unchanged. *)
Theorem threshold_not_validated (R : Path -> Path) (a : LatchFile)
    (o : option string) (g : number) (m : TrimmingMode) :
  no_raise (trim_aln_task0 R a o g m)
  /\ (falsy_number g = false ->
      forall (H : Host) (w : World H),
        exists cmd : list string,
          spawned (exec H (trim_aln_task0 R a o g m) w) = [cmd]
          /\ nth_error cmd 6 = Some "-g"
          /\ nth_error cmd 7 = Some (str_number g)).
Proof.
  split.
  - rewrite trim_aln_task0_tree. apply no_raise_run_ret.
  - intros Hg H w. exists (task_cmd R a o g m).
    split; [apply spawned_trim |].
    destruct (threshold_arg R a o g m) as [H6 H7].
    rewrite Hg in H7. split; assumption.
Qed.

Lemma threshold_not_validated_witness :
  exists cmd : list string,
    spawned (exec Hosts.working
               (trim_aln_task0 (Hosts.resolve_in "/root") Hosts.aln None
                  (PyFloat (-3.5)) gappy) ["/root/aln.fa"]) = [cmd]
    /\ nth_error cmd 6 = Some "-g"
    /\ nth_error cmd 7 = Some (str_number (PyFloat (-3.5))).
Proof.
  destruct (threshold_not_validated (Hosts.resolve_in "/root") Hosts.aln
              None (PyFloat (-3.5)) gappy) as [_ Hpass].
  apply Hpass. reflexivity.
Defined.

Example out_of_range_thresholds :
  map (fun g =>
         nth 7 (task_cmd (Hosts.resolve_in "/root") Hosts.aln None g gappy)
             "")
      [PyFloat (-3.5); PyFloat 1.5; PyFloat 100; PyInt (-2); PyInt 7;
       PyFloat infinity; PyFloat nan; PyFloat 0; PyInt 0]
  = ["-3.5"; "1.5"; "100.0"; "-2"; "7"; "inf"; "nan"; "0.9"; "0.9"].
Proof. vm_compute. reflexivity. Qed.

(* ================================================================== *)
(** * Further properties of the module *)
(* ================================================================== *)

(** ** The enumeration as a string protocol *)

(** X1: no two members of [TrimmingMode] carry the same value, so none is
    an alias of another and the flag string identifies the mode. *)
Theorem value_injective (m1 m2 : TrimmingMode) :
  value m1 = value m2 -> m1 = m2.
Proof.
  destruct m1, m2; intros E; try reflexivity; discriminate E.
Qed.

Lemma value_injective_witness : kpic_gappy = kpic_gappy.
Proof. apply (value_injective kpic_gappy kpic_gappy). reflexivity. Defined.

Lemma find_by_value (m : TrimmingMode) :
  find (fun m' => String.eqb (value m') (value m)) members = Some m.
Proof. destruct m; reflexivity. Qed.

(** X2: looking a member up by its value gives that member back; a lookup
    that succeeds gives a member with exactly the string asked for; and a
    string that is the value of no member is a [ValueError]. *)
Theorem lookup_by_value_roundtrip :
  (forall m : TrimmingMode, TrimmingMode_call (value m) = inr m)
  /\ (forall (s : string) (m : TrimmingMode),
        TrimmingMode_call s = inr m -> value m = s)
  /\ (forall s : string,
        ~ In s (map value members) ->
        TrimmingMode_call s = inl ValueError).
Proof.
  unfold TrimmingMode_call. split; [| split].
  - intros m. rewrite find_by_value. reflexivity.
  - intros s m.
    destruct (find (fun m' => String.eqb (value m') s) members) as [m0 |]
      eqn:E; [| discriminate].
    intros Hm. injection Hm as Hm. subst m0.
    apply find_some in E. destruct E as [_ E].
    apply String.eqb_eq. exact E.
  - intros s Hs.
    destruct (find (fun m' => String.eqb (value m') s) members) as [m0 |]
      eqn:E; [| reflexivity].
    apply find_some in E. destruct E as [Hin E].
    apply String.eqb_eq in E. exfalso. apply Hs. rewrite <- E.
    apply in_map. exact Hin.
Qed.

Lemma lookup_by_value_roundtrip_witness :
  value kpi_smart_gap = "kpi-smart-gap"
  /\ TrimmingMode_call "smart_gap" = inl ValueError.
Proof.
  destruct lookup_by_value_roundtrip as (_ & Hinv & Hmiss). split.
  - apply Hinv. reflexivity.
  - apply Hmiss. cbn.
    intros [E | [E | [E | [E | [E | [E | [E | [E | []]]]]]]]];
      discriminate E.
Defined.

(** X3: the value of every member is its name with each underscore turned
    into a hyphen, so a name never works as a flag value when it contains
    an underscore. *)
Theorem value_is_hyphenated_name (m : TrimmingMode) :
  value m = hyphenate (name m)
  /\ (name m <> value m -> TrimmingMode_call (name m) = inl ValueError).
Proof.
  split.
  - destruct m; reflexivity.
  - destruct m; intros Hne; try reflexivity; exfalso; apply Hne; reflexivity.
Qed.

Lemma value_is_hyphenated_name_witness :
  TrimmingMode_call (name kpic_smart_gap) = inl ValueError.
Proof.
  destruct (value_is_hyphenated_name kpic_smart_gap) as [_ Hbad].
  apply Hbad. discriminate.
Defined.

(** ** Documentation against declarations *)

(** X4: the modes the workflow's docstring lists are, up to order, exactly
    the values of the enumeration, each once; and the defaults the text
    names are the declared ones: the default mode's value is the documented
    mode and the default threshold prints as the documented number. *)
Theorem documentation_matches_declarations :
  Permutation documented_modes (map value members)
  /\ NoDup documented_modes
  /\ exists (m : TrimmingMode) (g : number),
       In (mkParam "trimming_mode" T_TrimmingMode (Some (VMode m)))
          clipkit_params
       /\ value m = documented_default_mode
       /\ In (mkParam "gap_threshold" T_float (Some (VNum g))) clipkit_params
       /\ str_number g = documented_default_threshold.
Proof.
  assert (Hnd : NoDup documented_modes).
  { unfold documented_modes.
    repeat (constructor; [cbn; intros Hin;
                          repeat (destruct Hin as [Hin | Hin];
                                  [discriminate Hin |]); exact Hin |]).
    constructor. }
  split; [| split].
  - apply NoDup_Permutation.
    + exact Hnd.
    + cbn [map members value].
      repeat (constructor; [cbn; intros Hin;
                            repeat (destruct Hin as [Hin | Hin];
                                    [discriminate Hin |]); exact Hin |]).
      constructor.
    + intros x. cbn. tauto.
  - exact Hnd.
  - exists smart_gap, (PyFloat 0.9). split; [| split; [| split]].
    + cbn. tauto.
    + reflexivity.
    + cbn. tauto.
    + exact str_float_default.
Qed.

(** ** Failure to start the tool *)



(** ** What the handle depends on *)



(** X10: of the input handle only the local path is read: two handles with
    the same local path give the same computation whatever their remote
    paths. *)
Theorem input_remote_path_unused (R : Path -> Path) (p : string)
    (r r' : option string) (o : option string) (g : number)
    (m : TrimmingMode) :
  trim_aln_task0 R (mkLatchFile p r) o g m
  = trim_aln_task0 R (mkLatchFile p r') o g m.
Proof. reflexivity. Qed.

(** X7: the remote destination is ["latch:///"] glued in front of the
    output path as it is, so whenever that path is absolute, as the
    resolved default always is on a machine whose [resolve] yields absolute
    paths, the destination has four slashes after the scheme. *)
Theorem absolute_path_gives_four_slashes (R : Path -> Path) (H : Host)
    (w : World H) (a : LatchFile) (o : option string) (g : number)
    (m : TrimmingMode) (cmd : list string) (cp : CompletedProcess)
    (w' : World H) (rest : string) :
  spawned (exec H (trim_aln_task0 R a o g m) w) = [cmd] ->
  spawn H cmd w = (inr cp, w') ->
  nth_error cmd 3 = Some (String "/" rest) ->
  result (exec H (trim_aln_task0 R a o g m) w)
  = inr (mkLatchFile (String "/" rest) (Some ("latch:////" ++ rest))).
Proof.
  intros Hcmd Hrun Habs. apply spawned_trim_inv in Hcmd. subst cmd.
  rewrite result_trim, Hrun. cbn [fst].
  rewrite task_cmd_eq in Habs |- *. cbn [nth_error] in Habs. cbn [nth].
  injection Habs as Habs. rewrite Habs. reflexivity.
Qed.

Lemma absolute_path_gives_four_slashes_witness :
  result (exec Hosts.working
            (trim_aln_task0 (Hosts.resolve_in "/root") Hosts.aln None
               (PyFloat 0.9) smart_gap) ["/root/aln.fa"])
  = inr (mkLatchFile "/root/trimmed_aln.fna"
           (Some ("latch:////" ++ "root/trimmed_aln.fna"))).
Proof.
  apply (absolute_path_gives_four_slashes (Hosts.resolve_in "/root")
           Hosts.working ["/root/aln.fa"] Hosts.aln None (PyFloat 0.9)
           smart_gap
           ["clipkit"; "/root/aln.fa"; "-o"; "/root/trimmed_aln.fna"; "-m";
            "smart-gap"; "-g"; "0.9"]
           (mkCompletedProcess
              ["clipkit"; "/root/aln.fa"; "-o"; "/root/trimmed_aln.fna";
               "-m"; "smart-gap"; "-g"; "0.9"] 0)
           ["/root/trimmed_aln.fna"; "/root/aln.fa"]).
  - vm_compute. reflexivity.
  - vm_compute. reflexivity.
  - reflexivity.
Defined.

(** ** The two signatures *)




(** X9: a call of the workflow that gives only the input file starts, on
    every host, the single command [clipkit <input> -o <resolved
    trimmed_aln.fna> -m smart-gap -g 0.9]. *)
Theorem workflow_default_run (R : Path -> Path) (H : Host) (w : World H)
    (a : LatchFile) :
  spawned (exec H (call_clipkit R [("aln_fasta", VFile a)]) w)
  = [[ "clipkit"; local_path a; "-o";
       fspath (R (mkPath "trimmed_aln.fna"));
       "-m"; "smart-gap"; "-g"; "0.9" ]].
Proof.
  change (call_clipkit R [("aln_fasta", VFile a)])
    with (trim_aln_task0 R a None (PyFloat 0.9) smart_gap).
  rewrite spawned_trim, task_cmd_eq.
  change (str_number (if falsy_number (PyFloat 0.9) then PyFloat 0.9
                      else PyFloat 0.9))
    with (str_float 0.9).
  rewrite str_float_default. reflexivity.
Qed.
